(** * SecurePaste Python client (examples/python_example.py)

    A shallow embedding of [SecurePasteClient] and of the driver [main].
    The HTTP session is an oracle [net]: the outcome of a request given the
    list of requests sent before it, so any (stateful) server is covered.
    Python exceptions are an error result of a small state-and-exception
    monad whose state is the list of requests handed to the session (one
    per session call; the redirects [requests] follows inside a call are
    part of that call's outcome) and the lines printed. *)

From Stdlib Require Import String Ascii List ZArith Bool Lia.
Import ListNotations.
Open Scope string_scope.
Open Scope Z_scope.
Set Warnings "-register-all".

(** ** Python values handled by the script: decoded JSON, with [JNull] for
    both JSON [null] and Python [None]. Numbers are the integers the API
    sends. *)
Inductive json : Type :=
| JNull
| JBool (b : bool)
| JNum (z : Z)
| JStr (s : string)
| JArr (l : list json)
| JObj (o : list (string * json)).

(** A Python dict with string keys, in insertion order. *)
Definition dict := list (string * json).

(** [d.get(k)] / [k in d] on a dict: keys of a dict are unique. *)
Fixpoint dict_lookup (k : string) (d : dict) : option json :=
  match d with
  | [] => None
  | (k', v) :: t => if String.eqb k k' then Some v else dict_lookup k t
  end.

(** [d[k] = v]: an existing key keeps its position, a new key is appended. *)
Fixpoint dict_set (d : dict) (k : string) (v : json) : dict :=
  match d with
  | [] => [(k, v)]
  | (k', v') :: t =>
      if String.eqb k k' then (k, v) :: t else (k', v') :: dict_set t k v
  end.

(** [{**base, **extra}]: the entries of [extra] inserted in order. *)
Definition dict_merge (base extra : dict) : dict :=
  fold_left (fun d kv => dict_set d (fst kv) (snd kv)) extra base.

(** ** Text helpers *)

Definition char_of_nat (n : nat) : string := String (ascii_of_nat n) EmptyString.
Definition nl : string := char_of_nat 10.

Fixpoint repeat_str (n : nat) (s : string) : string :=
  match n with O => EmptyString | S k => s ++ repeat_str k s end.

Fixpoint join (sep : string) (l : list string) : string :=
  match l with
  | [] => EmptyString
  | [x] => x
  | x :: t => x ++ sep ++ join sep t
  end.

(** Decimal digits of a natural number. *)
Fixpoint dec_N (fuel : nat) (n : N) (acc : string) : string :=
  match fuel with
  | O => acc
  | S f =>
      let acc' := String (ascii_of_N (48 + N.modulo n 10)) acc in
      if N.eqb (N.div n 10) 0 then acc' else dec_N f (N.div n 10) acc'
  end.

(** [str(z)] for a Python int. *)
Definition str_Z (z : Z) : string :=
  let s := dec_N (S (N.size_nat (Z.abs_N z))) (Z.abs_N z) EmptyString in
  if z <? 0 then "-" ++ s else s.

(** Strings are UTF-8 bytes. A continuation byte ([10xxxxxx]) continues
    the character its leading byte starts. *)
Definition is_continuation (c : ascii) : bool :=
  let n := nat_of_ascii c in ((128 <=? n) && (n <? 192))%nat.

(** The characters (code points) of a string, each as its bytes: what
    Python's [len], [s[i]], [s[:n]] and iteration count. *)
Fixpoint code_points (s : string) : list string :=
  match s with
  | EmptyString => []
  | String c t =>
      match code_points t with
      | String c' u :: rest =>
          if is_continuation c'
          then String c (String c' u) :: rest
          else String c EmptyString :: String c' u :: rest
      | rest => String c EmptyString :: rest
      end
  end.

(** [s[:n]] on a string: its first [n] characters. *)
Definition str_take (n : nat) (s : string) : string :=
  String.concat "" (firstn n (code_points s)).

Fixpoint has_char (c : ascii) (s : string) : bool :=
  match s with EmptyString => false | String c' t => Ascii.eqb c c' || has_char c t end.

Definition hex_digit (n : nat) : ascii :=
  ascii_of_nat (if (n <? 10)%nat then 48 + n else 87 + n)%nat.

(** One character of [repr(s)] with quote [q]: backslash, the quote, tab,
    newline and carriage return escaped, the other ASCII control
    characters as [\xhh]; other characters (non-ASCII ones included) as
    they are. *)
Definition repr_char (q c : ascii) : string :=
  let n := nat_of_ascii c in
  if Ascii.eqb c "\"%char then "\\"
  else if Ascii.eqb c q then String "\"%char (String q EmptyString)
  else if (n =? 9)%nat then "\t"
  else if (n =? 10)%nat then "\n"
  else if (n =? 13)%nat then "\r"
  else if ((n <? 32) || (n =? 127))%nat
  then "\x" ++ String (hex_digit (n / 16)) (String (hex_digit (n mod 16)) EmptyString)
  else String c EmptyString.

Fixpoint repr_body (q : ascii) (s : string) : string :=
  match s with EmptyString => EmptyString | String c t => repr_char q c ++ repr_body q t end.

(** [repr(s)]: single quotes, or double quotes when [s] holds a single
    quote and no double quote. *)
Definition repr_str (s : string) : string :=
  let q := if has_char "'"%char s && negb (has_char (ascii_of_nat 34) s)
           then ascii_of_nat 34 else "'"%char in
  String q (repr_body q s ++ String q EmptyString).

(** [str()] and [repr()] of a value. *)
Fixpoint py_repr (j : json) : string :=
  match j with
  | JNull => "None"
  | JBool b => if b then "True" else "False"
  | JNum z => str_Z z
  | JStr s => repr_str s
  | JArr l => "[" ++ join ", " (map py_repr l) ++ "]"
  | JObj o =>
      "{" ++ join ", " (map (fun kv => repr_str (fst kv) ++ ": " ++ py_repr (snd kv)) o)
      ++ "}"
  end.

Definition py_str (j : json) : string :=
  match j with JStr s => s | _ => py_repr j end.

(** Truthiness of a value ([if x:]). *)
Definition py_truthy (j : json) : bool :=
  match j with
  | JNull => false
  | JBool b => b
  | JNum z => negb (Z.eqb z 0)
  | JStr s => negb (String.eqb s "")
  | JArr l => negb (match l with [] => true | _ => false end)
  | JObj o => negb (match o with [] => true | _ => false end)
  end.

(** [s.rstrip("/")] *)
Fixpoint strip_leading_slashes (l : list ascii) : list ascii :=
  match l with
  | c :: t => if Ascii.eqb c "/"%char then strip_leading_slashes t else l
  | [] => []
  end.

Definition rstrip_slash (s : string) : string :=
  string_of_list_ascii (rev (strip_leading_slashes (rev (list_ascii_of_string s)))).

(** Substring test, used to inspect what was printed. *)
Fixpoint contains (needle hay : string) : bool :=
  String.prefix needle hay ||
  match hay with EmptyString => false | String _ t => contains needle t end.

Definition dq : string := char_of_nat 34.
Definition check_mark : string := "✓".
Definition cross_mark : string := "✗".

(** ** HTTP exchange as seen through [requests] *)

Inductive method := GET | POST | PUT | DELETE.

(** A request handed to the session: method, URL, the [params=] dict and
    the [json=] argument. *)
Record request := mkRequest {
  req_method : method;
  req_url : string;
  req_params : dict;
  req_json : option json
}.

(** The outcome of [response.json()]: the decoded value, or the message of
    the [JSONDecodeError] raised on a body that is not valid JSON. *)
Inductive json_result := Decoded (j : json) | Malformed (msg : string).

(** A final response: status code, reason phrase, final URL, raw body text
    and what [response.json()] gives on that body. *)
Record response := mkResponse {
  status_code : Z;
  reason : string;
  resp_url : string;
  text : string;
  resp_json : json_result
}.

(** What a session call yields: a response, or a transport-level
    [RequestException] (connection refused, timeout, too many redirects, ...)
    with its message and the response it carries, if any. *)
Inductive outcome :=
| Received (r : response)
| Failed (msg : string) (carried : option response).

(** [Response.ok] / [bool(response)]: [raise_for_status] does not raise. *)
Definition resp_ok (r : response) : bool :=
  negb ((400 <=? status_code r) && (status_code r <? 600)).

(** ** Python exceptions *)
Inductive exn :=
| RequestError (msg : string) (resp : option response)  (** transport errors *)
| HTTPError (msg : string) (resp : response)       (** from [raise_for_status] *)
| JSONDecodeError (msg : string)                   (** from [response.json()] *)
| ShapeError (cls : string) (msg : string)   (** KeyError, TypeError, ... *)
| SystemExit (code : Z).

(** [except requests.RequestException] *)
Definition is_request_exception (e : exn) : bool :=
  match e with
  | RequestError _ _ | HTTPError _ _ | JSONDecodeError _ => true
  | _ => false
  end.

(** [str(e)] *)
Definition exn_str (e : exn) : string :=
  match e with
  | RequestError m _ | HTTPError m _ | JSONDecodeError m | ShapeError _ m => m
  | SystemExit c => str_Z c
  end.

(** [e.response]; [RequestException.__init__] always sets it. *)
Definition exn_response (e : exn) : option response :=
  match e with
  | RequestError _ r => r
  | HTTPError _ r => Some r
  | _ => None
  end.

(** ** The state-and-exception monad *)
Inductive result (A : Type) := Ok (a : A) | Exc (e : exn).
Arguments Ok {A} a.
Arguments Exc {A} e.

(** Requests sent so far, in order, and lines printed so far. *)
Record world := mkWorld { sent : list request; out : list string }.

Definition M (A : Type) := world -> result A * world.

Definition ret {A} (a : A) : M A := fun w => (Ok a, w).
Definition bind {A B} (m : M A) (f : A -> M B) : M B :=
  fun w => match m w with
           | (Ok a, w') => f a w'
           | (Exc e, w') => (Exc e, w')
           end.
Definition raise {A} (e : exn) : M A := fun w => (Exc e, w).

Notation "x <- m ;; k" := (bind m (fun x => k))
  (at level 61, m at next level, right associativity).
Notation "m ;;; k" := (bind m (fun _ => k))
  (at level 61, right associativity).

(** [try: body except RequestException as e: handler(e)] *)
Definition try_request {A} (body : M A) (handler : exn -> M A) : M A :=
  fun w => match body w with
           | (Exc e, w') => if is_request_exception e then handler e w' else (Exc e, w')
           | r => r
           end.

Definition print (line : string) : M unit :=
  fun w => (Ok tt, mkWorld (sent w) (out w ++ [line])).

(** [sys.exit(code)] *)
Definition sys_exit {A} (code : Z) : M A := raise (SystemExit code).

(** ** Python operations on decoded values *)

(** [v[k]] with a string key. *)
Definition getitem (v : json) (k : string) : M json :=
  match v with
  | JObj o => match dict_lookup k o with
              | Some x => ret x
              | None => raise (ShapeError "KeyError" ("'" ++ k ++ "'"))
              end
  | _ => raise (ShapeError "TypeError" "not subscriptable by a string")
  end.

(** [v[i]] with an int index. *)
Definition getitem_int (v : json) (i : nat) : M json :=
  match v with
  | JArr l => match nth_error l i with
              | Some x => ret x
              | None => raise (ShapeError "IndexError" "list index out of range")
              end
  | JStr s => match nth_error (code_points s) i with
              | Some c => ret (JStr c)
              | None => raise (ShapeError "IndexError" "string index out of range")
              end
  | JObj _ => raise (ShapeError "KeyError" (str_Z (Z.of_nat i)))
  | _ => raise (ShapeError "TypeError" "not subscriptable")
  end.

(** [v.get(k, default)] *)
Definition dict_get (v : json) (k : string) (default : json) : M json :=
  match v with
  | JObj o => match dict_lookup k o with Some x => ret x | None => ret default end
  | _ => raise (ShapeError "AttributeError" "object has no attribute 'get'")
  end.

(** [v[:n]] *)
Definition slice_to (v : json) (n : nat) : M json :=
  match v with
  | JStr s => ret (JStr (str_take n s))
  | JArr l => ret (JArr (firstn n l))
  | _ => raise (ShapeError "TypeError" "not sliceable")
  end.

(** [len(v)] *)
Definition py_len (v : json) : M nat :=
  match v with
  | JStr s => ret (length (code_points s))
  | JArr l => ret (length l)
  | JObj o => ret (length o)
  | _ => raise (ShapeError "TypeError" "object has no len()")
  end.

(** The items a [for] loop visits. *)
Definition py_iter (v : json) : M (list json) :=
  match v with
  | JStr s => ret (map JStr (code_points s))
  | JArr l => ret l
  | JObj o => ret (map (fun kv => JStr (fst kv)) o)
  | _ => raise (ShapeError "TypeError" "object is not iterable")
  end.

Fixpoint for_each {A} (l : list A) (body : A -> M unit) : M unit :=
  match l with
  | [] => ret tt
  | x :: t => body x ;;; for_each t body
  end.

(** ** The client *)

Record client := mkClient { base_url : string; api_base : string }.

(** [SecurePasteClient.__init__] (the session's headers are constant and not
    observed by the code). *)
Definition init_client (base : string) : client :=
  let b := rstrip_slash base in mkClient b (b ++ "/api/pastes").

(** [response.raise_for_status()] of [requests]. *)
Definition raise_for_status (r : response) : M unit :=
  let s := status_code r in
  if (400 <=? s) && (s <? 500) then
    raise (HTTPError (str_Z s ++ " Client Error: " ++ reason r ++ " for url: " ++ resp_url r) r)
  else if (500 <=? s) && (s <? 600) then
    raise (HTTPError (str_Z s ++ " Server Error: " ++ reason r ++ " for url: " ++ resp_url r) r)
  else ret tt.

(** [response.json()] *)
Definition response_json (r : response) : M json :=
  match resp_json r with
  | Decoded j => ret j
  | Malformed m => raise (JSONDecodeError m)
  end.

(** [print(f"Response: {e.response.text}")] guarded by
    [hasattr(e, 'response') and e.response]; [bool(response)] is
    [response.ok]. *)
Definition print_error_response (e : exn) : M unit :=
  match exn_response e with
  | Some r => if resp_ok r then print ("Response: " ++ text r) else ret tt
  | None => ret tt
  end.

(** ** Python's binding of the arguments of [create_paste(self, title, content, **kwargs)] *)

(** The [TypeError] text of a parameter bound twice. *)
Definition multiple_values (p : string) : string :=
  "SecurePasteClient.create_paste() got multiple values for argument '" ++ p ++ "'".

(** The keyword arguments, in order: [self] is already bound to the
    instance, [title] and [content] go to their parameters unless a
    positional argument bound them, the others go to [**kwargs]. *)
Fixpoint bind_keywords (kw : dict) (t co : option json) (opts : dict)
    : string + (option json * option json * dict) :=
  match kw with
  | [] => inr (t, co, opts)
  | (k, v) :: rest =>
      if String.eqb k "self" then inl (multiple_values "self")
      else if String.eqb k "title" then
        match t with
        | Some _ => inl (multiple_values "title")
        | None => bind_keywords rest (Some v) co opts
        end
      else if String.eqb k "content" then
        match co with
        | Some _ => inl (multiple_values "content")
        | None => bind_keywords rest t (Some v) opts
        end
      else bind_keywords rest t co (opts ++ [(k, v)])%list
  end.

(** The positional arguments [pos] after [self] and the keyword
    arguments [kw] of a call: CPython binds the positionals, then the
    keywords, then checks the count of positionals and the missing
    parameters. *)
Definition bind_create_paste_args (pos : list json) (kw : dict)
    : string + (json * json * dict) :=
  match bind_keywords kw (nth_error pos 0) (nth_error pos 1) [] with
  | inl m => inl m
  | inr (t, co, opts) =>
      if (2 <? length pos)%nat then
        inl ("SecurePasteClient.create_paste() takes 3 positional arguments but "
             ++ str_Z (Z.of_nat (S (length pos))) ++ " were given")
      else
        match t, co with
        | Some t, Some co => inr (t, co, opts)
        | None, Some _ =>
            inl "SecurePasteClient.create_paste() missing 1 required positional argument: 'title'"
        | Some _, None =>
            inl "SecurePasteClient.create_paste() missing 1 required positional argument: 'content'"
        | None, None =>
            inl ("SecurePasteClient.create_paste() missing 2 required positional arguments: "
                 ++ "'title' and 'content'")
        end
  end.

Section Client.

(** The server behind the session: the outcome of a session call (after
    any redirects the session follows) given the requests handed to the
    session before it. *)
Variable net : list request -> request -> outcome.

Definition send (r : request) : M response :=
  fun w => (match net (sent w) r with
            | Received resp => Ok resp
            | Failed m c => Exc (RequestError m c)
            end, mkWorld (sent w ++ [r]) (out w)).

Definition session_get (url : string) (params : dict) : M response :=
  send (mkRequest GET url params None).
Definition session_post (url : string) (body : json) : M response :=
  send (mkRequest POST url [] (Some body)).
Definition session_put (url : string) (body : json) : M response :=
  send (mkRequest PUT url [] (Some body)).
Definition session_delete (url : string) : M response :=
  send (mkRequest DELETE url [] None).

Definition create_paste (c : client) (title content : json) (kwargs : dict) : M json :=
  let data := dict_merge [("title", title); ("content", content)] kwargs in
  try_request
    (response <- session_post (api_base c) (JObj data) ;;
     raise_for_status response ;;;
     response_json response)
    (fun e => print ("Error creating paste: " ++ exn_str e) ;;;
              print_error_response e ;;;
              ret JNull).

(** The call [client.create_paste] with the positional arguments [pos]
    and the keyword arguments [kw]: a call that does not bind raises
    [TypeError] before the body runs. *)
Definition create_paste_call (c : client) (pos : list json) (kw : dict) : M json :=
  match bind_create_paste_args pos kw with
  | inl msg => raise (ShapeError "TypeError" msg)
  | inr (t, co, opts) => create_paste c t co opts
  end.

Definition get_paste (c : client) (paste_id password : json) : M json :=
  let params := if py_truthy password then dict_set [] "password" password else [] in
  try_request
    (response <- session_get (api_base c ++ "/" ++ py_str paste_id) params ;;
     raise_for_status response ;;;
     response_json response)
    (fun e => print ("Error retrieving paste " ++ py_str paste_id ++ ": " ++ exn_str e) ;;;
              print_error_response e ;;;
              ret JNull).

Definition update_paste (c : client) (paste_id : json) (kwargs : dict) : M json :=
  try_request
    (response <- session_put (api_base c ++ "/" ++ py_str paste_id) (JObj kwargs) ;;
     raise_for_status response ;;;
     response_json response)
    (fun e => print ("Error updating paste " ++ py_str paste_id ++ ": " ++ exn_str e) ;;;
              print_error_response e ;;;
              ret JNull).

Definition delete_paste (c : client) (paste_id : json) : M bool :=
  try_request
    (response <- session_delete (api_base c ++ "/" ++ py_str paste_id) ;;
     raise_for_status response ;;;
     ret true)
    (fun e => print ("Error deleting paste " ++ py_str paste_id ++ ": " ++ exn_str e) ;;;
              ret false).

Definition get_public_pastes (c : client) (page size : Z) : M json :=
  let params := [("page", JNum page); ("size", JNum size)] in
  try_request
    (response <- session_get (api_base c ++ "/public") params ;;
     raise_for_status response ;;;
     response_json response)
    (fun e => print ("Error getting public pastes: " ++ exn_str e) ;;; ret JNull).

Definition search_pastes (c : client) (query : json) (page size : Z) : M json :=
  let params := [("q", query); ("page", JNum page); ("size", JNum size)] in
  try_request
    (response <- session_get (api_base c ++ "/search") params ;;
     raise_for_status response ;;;
     response_json response)
    (fun e => print ("Error searching pastes: " ++ exn_str e) ;;; ret JNull).

Definition get_pastes_by_language (c : client) (language : json) (page size : Z) : M json :=
  let params := [("page", JNum page); ("size", JNum size)] in
  try_request
    (response <- session_get (api_base c ++ "/language/" ++ py_str language) params ;;
     raise_for_status response ;;;
     response_json response)
    (fun e => print ("Error getting pastes for language " ++ py_str language ++ ": "
                     ++ exn_str e) ;;; ret JNull).

Definition get_statistics (c : client) : M json :=
  try_request
    (response <- session_get (api_base c ++ "/stats") [] ;;
     raise_for_status response ;;;
     response_json response)
    (fun e => print ("Error getting statistics: " ++ exn_str e) ;;; ret JNull).

(** [value == 'UP'] *)
Definition eq_UP (v : json) : bool :=
  match v with JStr s => String.eqb s "UP" | _ => false end.

Definition health_check (c : client) : M bool :=
  try_request
    (response <- session_get (api_base c ++ "/health") [] ;;
     raise_for_status response ;;;
     j <- response_json response ;;
     st <- dict_get j "status" JNull ;;
     ret (eq_UP st))
    (fun _ => ret false).

(** ** The driver *)

Definition print_paste_info (paste : json) : M unit :=
  if negb (py_truthy paste) then ret tt else
  (id <- getitem paste "id" ;; print ("ID: " ++ py_str id) ;;;
   t <- getitem paste "title" ;; print ("Title: " ++ py_str t) ;;;
   l <- dict_get paste "language" (JStr "N/A") ;; print ("Language: " ++ py_str l) ;;;
   a <- dict_get paste "authorName" (JStr "Anonymous") ;; print ("Author: " ++ py_str a) ;;;
   v <- getitem paste "visibility" ;; print ("Visibility: " ++ py_str v) ;;;
   vc <- getitem paste "viewCount" ;; print ("Views: " ++ py_str vc) ;;;
   ca <- getitem paste "createdAt" ;; print ("Created: " ++ py_str ca) ;;;
   ex <- dict_get paste "expiresAt" JNull ;;
   (if py_truthy ex
    then (e <- getitem paste "expiresAt" ;; print ("Expires: " ++ py_str e))
    else ret tt) ;;;
   pp <- dict_get paste "passwordProtected" JNull ;;
   (if py_truthy pp then print "Password Protected: Yes" else ret tt) ;;;
   co <- getitem paste "content" ;; pre <- slice_to co 100 ;;
   print ("Content Preview: " ++ py_str pre ++ "...") ;;;
   print (repeat_str 50 "-")).

(** Steps 4 to 13 of [main], once both pastes exist. *)
Definition main_steps_4_13 (cl : client) (simple_paste_id protected_paste_id : json) : M unit :=
  print (nl ++ "4. Creating a paste that expires in 60 minutes") ;;;
  expiring_paste <- create_paste cl (JStr "Temporary Code Snippet")
    (JStr ("// This paste will expire in 60 minutes" ++ nl
           ++ "console.log('Temporary message');"))
    [("language", JStr "javascript"); ("expirationMinutes", JNum 60);
     ("visibility", JStr "PUBLIC")] ;;
  (if py_truthy expiring_paste
   then (print (check_mark ++ " Expiring paste created successfully") ;;;
         print_paste_info expiring_paste)
   else ret tt) ;;;
  print (nl ++ "5. Retrieving the simple paste") ;;;
  retrieved <- get_paste cl simple_paste_id JNull ;;
  (if py_truthy retrieved
   then (print (check_mark ++ " Paste retrieved successfully") ;;;
         vc <- getitem retrieved "viewCount" ;;
         print ("View count increased to: " ++ py_str vc))
   else ret tt) ;;;
  print (nl ++ "6. Attempting to retrieve protected paste without password") ;;;
  failed_retrieval <- get_paste cl protected_paste_id JNull ;;
  (if negb (py_truthy failed_retrieval)
   then print (check_mark ++ " Correctly denied access without password")
   else ret tt) ;;;
  print (nl ++ "7. Retrieving protected paste with password") ;;;
  protected_retrieved <- get_paste cl protected_paste_id (JStr "secret123") ;;
  (if py_truthy protected_retrieved
   then print (check_mark ++ " Protected paste retrieved successfully with password")
   else ret tt) ;;;
  print (nl ++ "8. Updating the simple paste") ;;;
  updated <- update_paste cl simple_paste_id
    [("title", JStr "Updated Hello World Example");
     ("content", JStr ("print(" ++ dq ++ "Hello, Updated World from Python!" ++ dq ++ ")"))] ;;
  (if py_truthy updated
   then (print (check_mark ++ " Paste updated successfully") ;;;
         t <- getitem updated "title" ;; print ("New title: " ++ py_str t))
   else ret tt) ;;;
  print (nl ++ "9. Searching for Python pastes") ;;;
  search_results <- search_pastes cl (JStr "Python") 0 5 ;;
  (if py_truthy search_results
   then (c <- getitem search_results "content" ;;
         if py_truthy c
         then (c1 <- getitem search_results "content" ;; n <- py_len c1 ;;
               print (check_mark ++ " Found " ++ str_Z (Z.of_nat n)
                      ++ " Python-related pastes") ;;;
               c2 <- getitem search_results "content" ;; first2 <- slice_to c2 2 ;;
               items <- py_iter first2 ;;
               for_each items print_paste_info)
         else ret tt)
   else ret tt) ;;;
  print (nl ++ "10. Getting JavaScript pastes") ;;;
  js_pastes <- get_pastes_by_language cl (JStr "javascript") 0 3 ;;
  (if py_truthy js_pastes
   then (c <- getitem js_pastes "content" ;;
         if py_truthy c
         then (c1 <- getitem js_pastes "content" ;; n <- py_len c1 ;;
               print (check_mark ++ " Found " ++ str_Z (Z.of_nat n) ++ " JavaScript pastes"))
         else ret tt)
   else ret tt) ;;;
  print (nl ++ "11. Getting recent public pastes") ;;;
  public_pastes <- get_public_pastes cl 0 5 ;;
  (if py_truthy public_pastes
   then (c <- getitem public_pastes "content" ;;
         if py_truthy c
         then (c1 <- getitem public_pastes "content" ;; n <- py_len c1 ;;
               print (check_mark ++ " Retrieved " ++ str_Z (Z.of_nat n) ++ " public pastes") ;;;
               te <- getitem public_pastes "totalElements" ;;
               print ("Total public pastes: " ++ py_str te))
         else ret tt)
   else ret tt) ;;;
  print (nl ++ "12. Getting service statistics") ;;;
  stats <- get_statistics cl ;;
  (if py_truthy stats
   then (print (check_mark ++ " Statistics retrieved successfully") ;;;
         tp <- dict_get stats "totalPastes" (JNum 0) ;;
         print ("Total pastes: " ++ py_str tp) ;;;
         pp <- dict_get stats "publicPastes" (JNum 0) ;;
         print ("Public pastes: " ++ py_str pp) ;;;
         tv <- dict_get stats "totalViews" (JNum 0) ;;
         print ("Total views: " ++ py_str tv) ;;;
         popular_langs <- dict_get stats "popularLanguages" (JArr []) ;;
         if py_truthy popular_langs
         then (print "Popular languages:" ;;;
               top5 <- slice_to popular_langs 5 ;; items <- py_iter top5 ;;
               for_each items (fun lang_data =>
                 l0 <- getitem_int lang_data 0 ;; l1 <- getitem_int lang_data 1 ;;
                 print ("  - " ++ py_str l0 ++ ": " ++ py_str l1 ++ " pastes")))
         else ret tt)
   else ret tt) ;;;
  print (nl ++ "13. Cleaning up test pastes") ;;;
  d1 <- delete_paste cl simple_paste_id ;;
  (if d1 then print (check_mark ++ " Simple paste deleted") else ret tt) ;;;
  d2 <- delete_paste cl protected_paste_id ;;
  (if d2 then print (check_mark ++ " Protected paste deleted") else ret tt) ;;;
  print (nl ++ check_mark ++ " Example completed successfully!").

(** Step 3 of [main]; a failed creation returns from [main]. *)
Definition main_step_3 (cl : client) (simple_paste_id : json) : M unit :=
  print (nl ++ "3. Creating a password-protected paste") ;;;
  protected_paste <- create_paste cl (JStr "Secret Code")
    (JStr "const secret = 'This is a secret message!';")
    [("language", JStr "javascript"); ("visibility", JStr "UNLISTED");
     ("password", JStr "secret123")] ;;
  if py_truthy protected_paste
  then (print (check_mark ++ " Protected paste created successfully") ;;;
        print_paste_info protected_paste ;;;
        protected_paste_id <- getitem protected_paste "id" ;;
        main_steps_4_13 cl simple_paste_id protected_paste_id)
  else (print (cross_mark ++ " Failed to create protected paste") ;;; ret tt).

(** Steps 2 to 13 of [main]. *)
Definition main_after_health (cl : client) : M unit :=
  print (nl ++ "2. Creating a simple paste") ;;;
  simple_paste <- create_paste cl (JStr "Hello World Example")
    (JStr ("print(" ++ dq ++ "Hello, World from Python!" ++ dq ++ ")"))
    [("language", JStr "python"); ("authorName", JStr "API Example");
     ("visibility", JStr "PUBLIC")] ;;
  if py_truthy simple_paste
  then (print (check_mark ++ " Paste created successfully") ;;;
        print_paste_info simple_paste ;;;
        simple_paste_id <- getitem simple_paste "id" ;;
        main_step_3 cl simple_paste_id)
  else (print (cross_mark ++ " Failed to create paste") ;;; ret tt).

Definition default_client : client := init_client "http://localhost:8080".

Definition main : M unit :=
  print "SecurePaste Python API Client Example" ;;;
  print (repeat_str 50 "=") ;;;
  let cl := default_client in
  print "1. Health Check" ;;;
  ok <- health_check cl ;;
  (if ok then print (check_mark ++ " Service is healthy")
   else (print (cross_mark ++ " Service is not available") ;;; sys_exit 1)) ;;;
  main_after_health cl.

End Client.


(** * Properties *)

(** ** Dict lemmas *)

Lemma dict_lookup_set (d : dict) (k k' : string) (v : json) :
  dict_lookup k (dict_set d k' v) =
  if String.eqb k k' then Some v else dict_lookup k d.
Proof.
  induction d as [|[k0 v0] t IH]; simpl.
  - reflexivity.
  - destruct (String.eqb k' k0) eqn:E1.
    + apply String.eqb_eq in E1; subst k0; simpl.
      destruct (String.eqb k k'); reflexivity.
    + simpl. rewrite IH. destruct (String.eqb k k') eqn:E2; [|reflexivity].
      apply String.eqb_eq in E2; subst k.
      rewrite E1. reflexivity.
Qed.

Lemma dict_set_keys (d : dict) (k k' : string) (v : json) :
  In k' (map fst (dict_set d k v)) <-> k' = k \/ In k' (map fst d).
Proof.
  induction d as [|[k0 v0] t IH]; simpl.
  - intuition congruence.
  - destruct (String.eqb k k0) eqn:E.
    + apply String.eqb_eq in E; subst k0; simpl. intuition congruence.
    + simpl. rewrite IH. intuition congruence.
Qed.

Lemma dict_set_nodup (d : dict) (k : string) (v : json) :
  NoDup (map fst d) -> NoDup (map fst (dict_set d k v)).
Proof.
  induction d as [|[k0 v0] t IH]; simpl; intros Hd.
  - constructor; [intros []|constructor].
  - inversion Hd as [|? ? Hnin Ht]; subst.
    destruct (String.eqb k k0) eqn:E.
    + apply String.eqb_eq in E; subst k0. simpl. constructor; assumption.
    + simpl. constructor; [|apply IH; assumption].
      rewrite dict_set_keys. intros [Heq|Hin].
      * subst k0. rewrite String.eqb_refl in E. discriminate.
      * contradiction.
Qed.

Lemma dict_lookup_not_in (d : dict) (k : string) :
  ~ In k (map fst d) -> dict_lookup k d = None.
Proof.
  induction d as [|[k0 v0] t IH]; simpl; intros Hn; [reflexivity|].
  destruct (String.eqb k k0) eqn:E.
  - apply String.eqb_eq in E. subst. exfalso. apply Hn. left. reflexivity.
  - apply IH. tauto.
Qed.

(** Merging a dict with unique keys: its entries win, the others stay. *)
Lemma dict_merge_lookup (base extra : dict) (k : string) :
  NoDup (map fst extra) ->
  dict_lookup k (dict_merge base extra) =
  match dict_lookup k extra with Some v => Some v | None => dict_lookup k base end.
Proof.
  unfold dict_merge. revert base.
  induction extra as [|[k0 v0] t IH]; simpl; intros base Hnd; [reflexivity|].
  inversion Hnd as [|? ? Hnin Ht]; subst.
  rewrite IH by assumption. rewrite dict_lookup_set.
  destruct (String.eqb k k0) eqn:E.
  - apply String.eqb_eq in E; subst k0.
    rewrite dict_lookup_not_in by assumption. reflexivity.
  - reflexivity.
Qed.

Lemma dict_merge_nodup (base extra : dict) :
  NoDup (map fst base) -> NoDup (map fst (dict_merge base extra)).
Proof.
  unfold dict_merge. revert base.
  induction extra as [|[k0 v0] t IH]; simpl; intros base Hb; [assumption|].
  apply IH. apply dict_set_nodup. assumption.
Qed.

(** ** Running the client operations *)

Ltac unfold_client :=
  unfold create_paste, get_paste, update_paste, delete_paste, get_public_pastes,
    search_pastes, get_pastes_by_language, get_statistics, health_check,
    try_request, session_get, session_post, session_put, session_delete, send,
    bind, ret, raise, raise_for_status, response_json, print_error_response,
    print, dict_get, resp_ok in *;
  cbn [fst snd sent out] in *.

(** Split on the four comparisons of [raise_for_status] for status [s]. *)
Ltac status_cases s :=
  destruct (Z.leb_spec 400 s), (Z.ltb_spec s 500), (Z.leb_spec 500 s),
    (Z.ltb_spec s 600); cbn [andb negb] in *; try lia.

Definition is_2xx (s : Z) : Prop := 200 <= s < 300.

(** The exchange failed as [requests] and the client see it: a
    transport-level exception, a 4xx or 5xx status (what
    [raise_for_status] rejects), or, for the operations that decode the
    body, a body that is not valid JSON. *)
Definition transport_or_status_failure (o : outcome) : Prop :=
  match o with
  | Failed _ _ => True
  | Received r => 400 <= status_code r < 600
  end.

Definition json_call_failure (o : outcome) : Prop :=
  match o with
  | Failed _ _ => True
  | Received r =>
      400 <= status_code r < 600 \/ exists m, resp_json r = Malformed m
  end.

(** A server that answers every request with the same outcome, and the
    initial world. *)
Definition const_net (o : outcome) : list request -> request -> outcome :=
  fun _ _ => o.
Definition w0 : world := mkWorld [] [].

(** A final [300 Multiple Choices] reply (no [Location] header, so
    [requests] does not follow it) with a JSON body. *)
Definition resp_300 : response :=
  mkResponse 300 "Multiple Choices" "http://localhost:8080/api/pastes" "{}"
    (Decoded (JObj [])).

(** ** deletePaste *)

(** C8, as stated: a [300] reply makes deletePaste return true. *)
Lemma delete_paste_true_on_300 :
  ~ is_2xx (status_code resp_300) /\
  fst (delete_paste (const_net (Received resp_300)) default_client (JStr "abc") w0)
  = Ok true.
Proof. split; [unfold is_2xx; simpl; lia | reflexivity]. Qed.

(** C8 (amended): deletePaste sends [DELETE {api_base}/{id}] and never
    raises; it returns false on a transport failure or a 4xx/5xx status and
    true on any other status. Only the status decides: the body is not
    read. *)
Theorem delete_paste_result (net : list request -> request -> outcome)
    (c : client) (paste_id : json) (w : world) :
  let R := mkRequest DELETE (api_base c ++ "/" ++ py_str paste_id) [] None in
  sent (snd (delete_paste net c paste_id w)) = (sent w ++ [R])%list /\
  fst (delete_paste net c paste_id w) =
  Ok (match net (sent w) R with
      | Received r => negb ((400 <=? status_code r) && (status_code r <? 600))
      | Failed _ _ => false
      end).
Proof.
  intros R. unfold_client. fold R.
  destruct (net (sent w) R) as [r|m cr]; [|split; reflexivity].
  status_cases (status_code r); split; reflexivity.
Qed.

(** ** getPaste *)


(** Case analysis of the outcome of a JSON call: transport failure, then
    the status class and whether the body decodes. *)
Ltac json_call_cases :=
  cbn [json_call_failure transport_or_status_failure]; unfold is_2xx;
  lazymatch goal with
  | r : response |- _ =>
      status_cases (status_code r); destruct (resp_json r) as [j0|m0] eqn:Hj0;
      cbn; status_cases (status_code r)
  | cr : option response |- _ =>
      destruct cr as [rc|]; cbn; [status_cases (status_code rc)|]
  end;
  cbn; repeat split;
  lazymatch goal with
  | |- forall (_ : response) (_ : json), _ =>
      let r' := fresh "r" in let j := fresh "j" in
      let Hr := fresh "Hr" in let Hs := fresh "Hs" in let Hj := fresh "Hj" in
      intros r' j Hr Hs Hj;
      first [ discriminate Hr | injection Hr as <-; first [lia | congruence] ]
  | |- _ -> _ =>
      let Hf := fresh "Hf" in
      intros Hf;
      first [ reflexivity | lia | destruct Hf as [?|[? ?]]; first [lia | congruence] ]
  | |- _ => reflexivity
  end.



(** C10: an empty-string password gives the very same run as no
    password, and the request carries no query parameter. *)
Theorem get_paste_empty_password_is_none (net : list request -> request -> outcome)
    (c : client) (paste_id : json) (w : world) :
  get_paste net c paste_id (JStr "") w = get_paste net c paste_id JNull w /\
  sent (snd (get_paste net c paste_id (JStr "") w)) =
  (sent w ++ [mkRequest GET (api_base c ++ "/" ++ py_str paste_id) [] None])%list.
Proof.
  split; [reflexivity|].
  unfold_client. cbn. destruct (net _ _) as [r|m cr]; json_call_cases.
Qed.

(** ** updatePaste *)

(** C7: updatePaste sends [PUT {api_base}/{id}] whose JSON body is the
    dict of supplied fields, nothing else; a 2xx reply with a JSON body
    gives that body. *)
Theorem update_paste_request_and_result (net : list request -> request -> outcome)
    (c : client) (paste_id : json) (kwargs : dict) (w : world) :
  let R := mkRequest PUT (api_base c ++ "/" ++ py_str paste_id) [] (Some (JObj kwargs)) in
  sent (snd (update_paste net c paste_id kwargs w)) = (sent w ++ [R])%list /\
  (forall r j, net (sent w) R = Received r -> is_2xx (status_code r) ->
     resp_json r = Decoded j -> fst (update_paste net c paste_id kwargs w) = Ok j).
Proof.
  intros R. unfold_client. fold R.
  destruct (net (sent w) R) as [r|m cr] eqn:Hn; json_call_cases.
Qed.

(** ** createPaste *)

(** The body createPaste sends: [{'title': ..., 'content': ..., **kwargs}]. *)
Lemma create_paste_sends (net : list request -> request -> outcome)
    (c : client) (title content : json) (kwargs : dict) (w : world) :
  sent (snd (create_paste net c title content kwargs w)) =
  (sent w ++ [mkRequest POST (api_base c) []
               (Some (JObj (dict_merge [("title", title); ("content", content)] kwargs)))])%list.
Proof.
  unfold_client.
  destruct (net _ _) as [r|m cr]; json_call_cases.
Qed.

Lemma title_content_nodup : NoDup (map fst [("title", JNull); ("content", JNull)]).
Proof. simpl. constructor; [simpl; intuition discriminate | constructor; [intros []|constructor]]. Qed.

(** C6: createPaste sends [POST {api_base}] whose JSON body is a dict with
    unique keys holding every supplied option and, for [title] and
    [content] when no option names them, the required arguments; no other
    key. A 2xx reply with a JSON body gives that body. *)
Theorem create_paste_request_and_result (net : list request -> request -> outcome)
    (c : client) (title content : json) (kwargs : dict) (w : world) :
  NoDup (map fst kwargs) ->
  let d := dict_merge [("title", title); ("content", content)] kwargs in
  let R := mkRequest POST (api_base c) [] (Some (JObj d)) in
  sent (snd (create_paste net c title content kwargs w)) = (sent w ++ [R])%list /\
  NoDup (map fst d) /\
  (forall k, dict_lookup k d =
     match dict_lookup k kwargs with
     | Some v => Some v
     | None => if String.eqb k "title" then Some title
               else if String.eqb k "content" then Some content else None
     end) /\
  (forall r j, net (sent w) R = Received r -> is_2xx (status_code r) ->
     resp_json r = Decoded j -> fst (create_paste net c title content kwargs w) = Ok j).
Proof.
  intros Hnd d R. split; [apply create_paste_sends|]. split.
  { apply dict_merge_nodup. exact title_content_nodup. }
  split.
  { intros k. unfold d. rewrite dict_merge_lookup by assumption. reflexivity. }
  unfold_client. fold d. fold R.
  destruct (net (sent w) R) as [r|m cr] eqn:Hn; json_call_cases.
Qed.

(** The keyword arguments that land in [**kwargs]. *)
Definition extra_keyword (kv : string * json) : bool :=
  negb (String.eqb (fst kv) "self" || String.eqb (fst kv) "title" || String.eqb (fst kv) "content").

Lemma bind_keywords_both_bound (kw : dict) (a b : json) (acc : dict) :
  In "title" (map fst kw) \/ In "content" (map fst kw) ->
  exists m, bind_keywords kw (Some a) (Some b) acc = inl m.
Proof.
  revert acc. induction kw as [|[k v] t IH]; intros acc Hin; simpl in *; [tauto|].
  destruct (String.eqb k "self"); [eexists; reflexivity|].
  destruct (String.eqb k "title") eqn:Et; [eexists; reflexivity|].
  destruct (String.eqb k "content") eqn:Ec; [eexists; reflexivity|].
  apply IH. apply String.eqb_neq in Et, Ec.
  destruct Hin as [[->|H]|[->|H]]; try congruence; tauto.
Qed.

Lemma dict_lookup_cons (key k : string) (v : json) (rest : dict) :
  dict_lookup key ((k, v) :: rest) = if String.eqb key k then Some v else dict_lookup key rest.
Proof. reflexivity. Qed.

Lemma bind_keywords_spec (kw : dict) (t0 co0 : option json) (acc : dict) t co opts :
  bind_keywords kw t0 co0 acc = inr (t, co, opts) ->
  t = match t0 with Some v => Some v | None => dict_lookup "title" kw end /\
  co = match co0 with Some v => Some v | None => dict_lookup "content" kw end /\
  opts = (acc ++ filter extra_keyword kw)%list.
Proof.
  revert t0 co0 acc. induction kw as [|[k v] rest IH]; intros t0 co0 acc H.
  - cbn in H. injection H as <- <- <-. rewrite app_nil_r.
    split; [destruct t0; reflexivity|]. split; [destruct co0; reflexivity | reflexivity].
  - cbn [bind_keywords] in H. cbn [filter]. rewrite !dict_lookup_cons.
    unfold extra_keyword at 1; cbn [fst].
    destruct (String.eqb k "self") eqn:Es; [discriminate H|].
    destruct (String.eqb k "title") eqn:Et.
    + apply String.eqb_eq in Et; subst k.
      destruct t0; [discriminate H|]. apply IH in H as (-> & -> & ->).
      cbn. split; [reflexivity|]. split; reflexivity.
    + rewrite (String.eqb_sym "title" k), Et.
      destruct (String.eqb k "content") eqn:Ec.
      * apply String.eqb_eq in Ec; subst k.
        destruct co0; [discriminate H|]. apply IH in H as (-> & -> & ->).
        cbn. split; [reflexivity|]. split; reflexivity.
      * rewrite (String.eqb_sym "content" k), Ec.
        apply IH in H as (-> & -> & ->). cbn [orb negb].
        rewrite <- app_assoc. split; [|split; [|reflexivity]].
        -- destruct t0; reflexivity.
        -- destruct co0; reflexivity.
Qed.

Lemma filter_extra_keys (kw : dict) :
  NoDup (map fst kw) ->
  NoDup (map fst (filter extra_keyword kw)) /\
  ~ In "title" (map fst (filter extra_keyword kw)) /\
  ~ In "content" (map fst (filter extra_keyword kw)).
Proof.
  induction kw as [|[k v] rest IH]; intros Hnd; [cbn; split; [constructor | tauto]|].
  inversion Hnd as [|? ? Hnin Hr]; subst. destruct (IH Hr) as (N & Nt & Nc).
  cbn [filter]. destruct (extra_keyword (k, v)) eqn:Ex; [|split; [exact N | tauto]].
  unfold extra_keyword in Ex. cbn [fst] in Ex.
  destruct (String.eqb k "self"), (String.eqb k "title") eqn:Et, (String.eqb k "content") eqn:Ec;
    try discriminate Ex.
  apply String.eqb_neq in Et, Ec. cbn [map fst].
  split; [|split].
  - constructor; [|exact N]. intros Hin. apply Hnin.
    rewrite in_map_iff in Hin |- *. destruct Hin as [x [Hx Hin]].
    apply filter_In in Hin. exists x. tauto.
  - intros [H|H]; [congruence | tauto].
  - intros [H|H]; [congruence | tauto].
Qed.

(** C9 (amended): with [title] and [content] passed positionally, an option
    named [title] or [content] makes Python raise [TypeError] before any
    request is sent; in every call that sends a request, the body carries
    under [title] and [content] the values bound to those parameters,
    never an option. *)
Theorem create_paste_options_cannot_override (net : list request -> request -> outcome)
    (c : client) (pos : list json) (kw : dict) (w : world) :
  NoDup (map fst kw) ->
  (length pos = 2%nat -> In "title" (map fst kw) \/ In "content" (map fst kw) ->
     exists msg, create_paste_call net c pos kw w = (Exc (ShapeError "TypeError" msg), w)) /\
  (forall R, sent (snd (create_paste_call net c pos kw w)) = (sent w ++ [R])%list ->
     exists d, R = mkRequest POST (api_base c) [] (Some (JObj d)) /\
       dict_lookup "title" d =
         match nth_error pos 0 with Some v => Some v | None => dict_lookup "title" kw end /\
       dict_lookup "content" d =
         match nth_error pos 1 with Some v => Some v | None => dict_lookup "content" kw end).
Proof.
  intros Hnd. split.
  - intros Hlen Hin. destruct pos as [|a [|b [|x y]]]; try discriminate Hlen.
    destruct (bind_keywords_both_bound kw a b [] Hin) as [m Hm].
    unfold create_paste_call, bind_create_paste_args. cbn [nth_error]. rewrite Hm.
    eexists. reflexivity.
  - intros R HR. unfold create_paste_call, bind_create_paste_args in HR.
    destruct (bind_keywords kw (nth_error pos 0) (nth_error pos 1) []) as [m|[[t co] opts]] eqn:Hb.
    + exfalso. cbn in HR. apply (f_equal (@length request)) in HR.
      rewrite length_app in HR. cbn in HR. lia.
    + apply bind_keywords_spec in Hb as (Ht & Hc & Ho). cbn [app] in Ho. subst opts.
      destruct (2 <? length pos)%nat.
      { exfalso. cbn in HR. apply (f_equal (@length request)) in HR.
        rewrite length_app in HR. cbn in HR. lia. }
      destruct t as [t|], co as [co|];
        try (exfalso; cbn in HR; apply (f_equal (@length request)) in HR;
             rewrite length_app in HR; cbn in HR; lia).
      rewrite create_paste_sends in HR. apply app_inv_head in HR. injection HR as <-.
      destruct (filter_extra_keys kw Hnd) as (N & Nt & Nc).
      eexists. split; [reflexivity|].
      rewrite !dict_merge_lookup by exact N.
      rewrite (dict_lookup_not_in _ "title") by exact Nt.
      rewrite (dict_lookup_not_in _ "content") by exact Nc.
      split; [rewrite <- Ht | rewrite <- Hc]; reflexivity.
Qed.

(** ** Failure handling of the operations other than healthCheck *)



(** ** healthCheck *)




(** ** What a failure report prints *)

Definition resp_404 : response :=
  mkResponse 404 "Not Found" "http://localhost:8080/api/pastes/abc"
    "Paste not found" (Malformed "Expecting value: line 1 column 1 (char 0)").

(** No line printed contains [body]. *)
Definition body_not_printed (body : string) (w : world) : bool :=
  forallb (fun line => negb (contains body line)) (out w).

(** C3, as stated: deletePaste reports a 404 without its body. *)
Lemma delete_paste_report_omits_body :
  let w' := snd (delete_paste (const_net (Received resp_404)) default_client (JStr "abc") w0) in
  out w' = ["Error deleting paste abc: 404 Client Error: Not Found for url: "
            ++ "http://localhost:8080/api/pastes/abc"] /\
  body_not_printed (text resp_404) w' = true.
Proof. split; vm_compute; reflexivity. Qed.

(** The [Response:] line of createPaste is guarded by [bool(e.response)],
    which is [e.response.ok]: false for the 4xx and 5xx responses that
    [raise_for_status] rejects. *)
Example create_paste_report_404 :
  let w' := snd (create_paste (const_net (Received resp_404)) default_client
                   (JStr "T") (JStr "C") [] w0) in
  out w' = ["Error creating paste: 404 Client Error: Not Found for url: "
            ++ "http://localhost:8080/api/pastes/abc"] /\
  body_not_printed (text resp_404) w' = true.
Proof. split; vm_compute; reflexivity. Qed.

(** [str(e)] of the [HTTPError] that [raise_for_status] raises. *)
Definition http_error_message (r : response) : string :=
  str_Z (status_code r)
  ++ (if status_code r <? 500 then " Client Error: " else " Server Error: ")
  ++ reason r ++ " for url: " ++ resp_url r.

(** The exception a request and [raise_for_status] raise for an outcome,
    if any: [e.response] is the response of a rejected status, and for a
    transport failure whatever response [requests] attached. *)
Definition status_exception (o : outcome) : option exn :=
  match o with
  | Failed m cr => Some (RequestError m cr)
  | Received r =>
      if (400 <=? status_code r) && (status_code r <? 600)
      then Some (HTTPError (http_error_message r) r) else None
  end.

(** The same for a call that also decodes the body with [response.json()]. *)
Definition json_call_exception (o : outcome) : option exn :=
  match o with
  | Failed m cr => Some (RequestError m cr)
  | Received r =>
      if (400 <=? status_code r) && (status_code r <? 600)
      then Some (HTTPError (http_error_message r) r)
      else match resp_json r with
           | Malformed m => Some (JSONDecodeError m)
           | Decoded _ => None
           end
  end.

(** The lines a failing operation prints for the caught exception [e]: the
    line [prefix ++ str(e)] alone. *)
Definition reports_failure (prefix : string) (e : exn) (w w' : world) : Prop :=
  out w' = (out w ++ [(prefix ++ exn_str e)%string])%list.

(** The same line, possibly followed by a [Response:] line with the raw
    body of the response attached to [e]. *)
Definition reports_failure_and_body (prefix : string) (e : exn) (w w' : world) : Prop :=
  out w' = (out w ++ [(prefix ++ exn_str e)%string])%list \/
  exists r, exn_response e = Some r /\
    out w' = (out w ++ [(prefix ++ exn_str e)%string; ("Response: " ++ text r)%string])%list.

Lemma string_append_assoc (a b c : string) : ((a ++ b) ++ c)%string = (a ++ b ++ c)%string.
Proof. induction a as [|x a IH]; simpl; [reflexivity | rewrite IH; reflexivity]. Qed.

(** Equality of printed lines up to the grouping of [++]. *)
Ltac line_eq :=
  cbn; repeat rewrite string_append_assoc; cbn; reflexivity.

(** Split on the outcome's status and body, name the exception and match
    the printed lines. *)
Ltac report_cases :=
  lazymatch goal with
  | r : response |- _ =>
      status_cases (status_code r); destruct (resp_json r) as [j0|m0];
      cbn; status_cases (status_code r)
  | cr : option response |- _ =>
      destruct cr as [rc|]; cbn; [status_cases (status_code rc)|]
  end;
  intros He; first [ discriminate He | injection He as <- ];
  unfold reports_failure, reports_failure_and_body;
  first [ line_eq | left; line_eq
        | right; eexists; split; [reflexivity | cbn; rewrite <- app_assoc; line_eq] ].

(** C3 (amended): when an operation other than healthCheck fails with the
    exception [e] (the one its exchange raises), it prints its error line
    [prefix ++ str(e)]; only createPaste, getPaste and updatePaste may
    follow it with a [Response:] line carrying the raw body of the response
    attached to [e]; the other five print the error line alone. *)
Theorem failure_reports (net : list request -> request -> outcome)
    (c : client) (w : world) :
  (forall title content kwargs e,
     json_call_exception (net (sent w) (mkRequest POST (api_base c) []
       (Some (JObj (dict_merge [("title", title); ("content", content)] kwargs))))) = Some e ->
     reports_failure_and_body "Error creating paste: " e w
       (snd (create_paste net c title content kwargs w))) /\
  (forall paste_id password e,
     json_call_exception (net (sent w) (mkRequest GET (api_base c ++ "/" ++ py_str paste_id)
       (if py_truthy password then dict_set [] "password" password else []) None)) = Some e ->
     reports_failure_and_body ("Error retrieving paste " ++ py_str paste_id ++ ": ") e w
       (snd (get_paste net c paste_id password w))) /\
  (forall paste_id kwargs e,
     json_call_exception (net (sent w) (mkRequest PUT (api_base c ++ "/" ++ py_str paste_id) []
       (Some (JObj kwargs)))) = Some e ->
     reports_failure_and_body ("Error updating paste " ++ py_str paste_id ++ ": ") e w
       (snd (update_paste net c paste_id kwargs w))) /\
  (forall paste_id e,
     status_exception
       (net (sent w) (mkRequest DELETE (api_base c ++ "/" ++ py_str paste_id) [] None)) = Some e ->
     reports_failure ("Error deleting paste " ++ py_str paste_id ++ ": ") e w
       (snd (delete_paste net c paste_id w))) /\
  (forall page size e,
     json_call_exception (net (sent w) (mkRequest GET (api_base c ++ "/public")
       [("page", JNum page); ("size", JNum size)] None)) = Some e ->
     reports_failure "Error getting public pastes: " e w
       (snd (get_public_pastes net c page size w))) /\
  (forall query page size e,
     json_call_exception (net (sent w) (mkRequest GET (api_base c ++ "/search")
       [("q", query); ("page", JNum page); ("size", JNum size)] None)) = Some e ->
     reports_failure "Error searching pastes: " e w
       (snd (search_pastes net c query page size w))) /\
  (forall language page size e,
     json_call_exception (net (sent w) (mkRequest GET
       (api_base c ++ "/language/" ++ py_str language)
       [("page", JNum page); ("size", JNum size)] None)) = Some e ->
     reports_failure ("Error getting pastes for language " ++ py_str language ++ ": ") e w
       (snd (get_pastes_by_language net c language page size w))) /\
  (forall e,
     json_call_exception (net (sent w) (mkRequest GET (api_base c ++ "/stats") [] None)) = Some e ->
     reports_failure "Error getting statistics: " e w (snd (get_statistics net c w))).
Proof.
  repeat split; intros *; unfold_client;
    unfold json_call_exception, status_exception, http_error_message;
    destruct (net _ _) as [r|m cr]; report_cases.
Qed.

Lemma failure_reports_witness :
  json_call_exception (Received resp_404) =
    Some (HTTPError "404 Client Error: Not Found for url: http://localhost:8080/api/pastes/abc"
            resp_404) /\
  reports_failure_and_body "Error creating paste: "
    (HTTPError "404 Client Error: Not Found for url: http://localhost:8080/api/pastes/abc" resp_404)
    w0 (snd (create_paste (const_net (Received resp_404)) default_client (JStr "T") (JStr "C") [] w0)) /\
  reports_failure "Error deleting paste abc: "
    (RequestError "Connection refused" None)
    w0 (snd (delete_paste (const_net (Failed "Connection refused" None)) default_client
               (JStr "abc") w0)).
Proof.
  split; [reflexivity|]. split.
  - apply (proj1 (failure_reports (const_net (Received resp_404)) default_client w0)
             (JStr "T") (JStr "C") []).
    reflexivity.
  - apply (proj1 (proj2 (proj2 (proj2
             (failure_reports (const_net (Failed "Connection refused" None)) default_client w0))))
             (JStr "abc")).
    reflexivity.
Defined.

(** ** The driver: which exceptions can end it *)

(** The exceptions Python raises when a decoded reply does not have the
    shape the driver reads. *)
Definition shape_error (e : exn) : bool :=
  match e with ShapeError _ _ => true | _ => false end.

(** A computation that raises nothing but shape errors. *)
Definition only_shape_errors {A} (m : M A) : Prop :=
  forall w, match fst (m w) with Ok _ => True | Exc e => shape_error e = true end.

Lemma ret_only_shape {A} (a : A) : only_shape_errors (ret a).
Proof. intros w. exact I. Qed.

Lemma print_only_shape (s : string) : only_shape_errors (print s).
Proof. intros w. exact I. Qed.

Lemma bind_only_shape {A B} (m : M A) (f : A -> M B) :
  only_shape_errors m -> (forall a, only_shape_errors (f a)) ->
  only_shape_errors (bind m f).
Proof.
  intros Hm Hf w. specialize (Hm w). unfold bind.
  destruct (m w) as [[a|e] w']; [apply Hf | exact Hm].
Qed.

Lemma getitem_only_shape v k : only_shape_errors (getitem v k).
Proof. intros w. destruct v; try reflexivity. cbn. destruct (dict_lookup k o); reflexivity. Qed.

Lemma getitem_int_only_shape v i : only_shape_errors (getitem_int v i).
Proof.
  intros w. destruct v; try reflexivity; cbn.
  - destruct (nth_error (code_points s) i); reflexivity.
  - destruct (nth_error l i); reflexivity.
Qed.

Lemma dict_get_only_shape v k d : only_shape_errors (dict_get v k d).
Proof. intros w. destruct v; try reflexivity. cbn. destruct (dict_lookup k o); reflexivity. Qed.

Lemma slice_to_only_shape v n : only_shape_errors (slice_to v n).
Proof. intros w. destruct v; reflexivity. Qed.

Lemma py_len_only_shape v : only_shape_errors (py_len v).
Proof. intros w. destruct v; reflexivity. Qed.

Lemma py_iter_only_shape v : only_shape_errors (py_iter v).
Proof. intros w. destruct v; reflexivity. Qed.

Lemma for_each_only_shape {A} (l : list A) (body : A -> M unit) :
  (forall a, only_shape_errors (body a)) -> only_shape_errors (for_each l body).
Proof.
  intros Hb. induction l as [|x t IH]; simpl.
  - apply ret_only_shape.
  - apply bind_only_shape; [apply Hb | intros _; exact IH].
Qed.

Section Driver.

Variable net : list request -> request -> outcome.

(** The client operations other than healthCheck never raise. *)
Ltac never_raises :=
  intros w; unfold_client; destruct (net _ _) as [r|m cr];
  lazymatch goal with
  | r : response |- _ =>
      status_cases (status_code r); destruct (resp_json r); cbn;
      status_cases (status_code r)
  | cr : option response |- _ =>
      destruct cr as [rc|]; cbn; [status_cases (status_code rc)|]
  end; exact I.


Lemma create_paste_only_shape c t ct kw : only_shape_errors (create_paste net c t ct kw).
Proof. never_raises. Qed.
Lemma get_paste_only_shape c i p : only_shape_errors (get_paste net c i p).
Proof. never_raises. Qed.
Lemma update_paste_only_shape c i kw : only_shape_errors (update_paste net c i kw).
Proof. never_raises. Qed.
Lemma delete_paste_only_shape c i : only_shape_errors (delete_paste net c i).
Proof. never_raises. Qed.
Lemma get_public_pastes_only_shape c p s : only_shape_errors (get_public_pastes net c p s).
Proof. never_raises. Qed.
Lemma search_pastes_only_shape c q p s : only_shape_errors (search_pastes net c q p s).
Proof. never_raises. Qed.
Lemma get_pastes_by_language_only_shape c l p s :
  only_shape_errors (get_pastes_by_language net c l p s).
Proof. never_raises. Qed.
Lemma get_statistics_only_shape c : only_shape_errors (get_statistics net c).
Proof. never_raises. Qed.


End Driver.

Create HintDb only_shape.
#[local] Hint Resolve ret_only_shape print_only_shape getitem_only_shape
  getitem_int_only_shape dict_get_only_shape slice_to_only_shape py_len_only_shape
  py_iter_only_shape create_paste_only_shape get_paste_only_shape
  update_paste_only_shape delete_paste_only_shape get_public_pastes_only_shape
  search_pastes_only_shape get_pastes_by_language_only_shape
  get_statistics_only_shape : only_shape.

(** Walk a straight-line driver computation. *)
Ltac only_shape_steps :=
  repeat first
    [ solve [auto with only_shape]
    | apply bind_only_shape; [| intros; cbv beta]
    | apply for_each_only_shape; intros
    | match goal with |- only_shape_errors (if ?b then _ else _) => destruct b end ].

Lemma print_paste_info_only_shape p : only_shape_errors (print_paste_info p).
Proof. unfold print_paste_info. only_shape_steps. Qed.
#[local] Hint Resolve print_paste_info_only_shape : only_shape.

Lemma main_steps_4_13_only_shape net cl s p :
  only_shape_errors (main_steps_4_13 net cl s p).
Proof. unfold main_steps_4_13. only_shape_steps. Qed.
#[local] Hint Resolve main_steps_4_13_only_shape : only_shape.

Lemma main_step_3_only_shape net cl s : only_shape_errors (main_step_3 net cl s).
Proof. unfold main_step_3. only_shape_steps. Qed.
#[local] Hint Resolve main_step_3_only_shape : only_shape.


Lemma health_check_sends net c w :
  sent (snd (health_check net c w)) =
  (sent w ++ [mkRequest GET (api_base c ++ "/health") [] None])%list.
Proof.
  unfold_client; destruct (net _ _) as [r|m cr]; [|reflexivity].
  status_cases (status_code r); destruct (resp_json r) as [j|]; cbn; try reflexivity.
  all: destruct j; cbn; try reflexivity; destruct (dict_lookup _ _); reflexivity.
Qed.





(** ** Witnesses at concrete inputs *)

Definition resp_201_paste : response :=
  mkResponse 201 "Created" "http://localhost:8080/api/pastes" "{}"
    (Decoded (JObj [("id", JStr "abc")])).

Lemma create_paste_request_and_result_witness :
  NoDup (map fst [("language", JStr "python"); ("visibility", JStr "PUBLIC")]) /\
  dict_lookup "language"
    (dict_merge [("title", JStr "T"); ("content", JStr "C")]
       [("language", JStr "python"); ("visibility", JStr "PUBLIC")]) = Some (JStr "python") /\
  fst (create_paste (const_net (Received resp_201_paste)) default_client (JStr "T") (JStr "C")
         [("language", JStr "python"); ("visibility", JStr "PUBLIC")] w0)
  = Ok (JObj [("id", JStr "abc")]).
Proof.
  assert (H : NoDup (map fst [("language", JStr "python"); ("visibility", JStr "PUBLIC")])).
  { simpl. constructor; [simpl; intuition discriminate | constructor; [intros [] | constructor]]. }
  destruct (create_paste_request_and_result (const_net (Received resp_201_paste))
              default_client (JStr "T") (JStr "C")
              [("language", JStr "python"); ("visibility", JStr "PUBLIC")] w0 H)
    as [_ [_ [Hl Hr]]].
  split; [exact H|]. split.
  - rewrite Hl. reflexivity.
  - apply (Hr resp_201_paste (JObj [("id", JStr "abc")])); [reflexivity | unfold is_2xx; simpl; lia | reflexivity].
Defined.

(** C9, as stated: an option [title] does not replace the title; the call
    [create_paste("A", "C", title="B")] raises [TypeError] and sends
    nothing. *)
Lemma create_paste_title_option_rejected :
  create_paste_call (const_net (Received resp_201_paste)) default_client
    [JStr "A"; JStr "C"] [("title", JStr "B")] w0
  = (Exc (ShapeError "TypeError"
            "SecurePasteClient.create_paste() got multiple values for argument 'title'"), w0).
Proof. reflexivity. Qed.

Lemma create_paste_options_cannot_override_witness :
  (exists msg, create_paste_call (const_net (Received resp_201_paste)) default_client
      [JStr "A"; JStr "C"] [("language", JStr "python"); ("content", JStr "D")] w0
    = (Exc (ShapeError "TypeError" msg), w0)) /\
  (forall R, sent (snd (create_paste_call (const_net (Received resp_201_paste)) default_client
      [JStr "A"] [("language", JStr "python"); ("content", JStr "D")] w0)) = (sent w0 ++ [R])%list ->
     exists d, R = mkRequest POST (api_base default_client) [] (Some (JObj d)) /\
       dict_lookup "title" d = Some (JStr "A") /\ dict_lookup "content" d = Some (JStr "D")).
Proof.
  split.
  - apply (create_paste_options_cannot_override (const_net (Received resp_201_paste))
             default_client [JStr "A"; JStr "C"] [("language", JStr "python"); ("content", JStr "D")] w0).
    + vm_compute. repeat constructor; cbn; intuition discriminate.
    + reflexivity.
    + right. cbn. tauto.
  - apply (create_paste_options_cannot_override (const_net (Received resp_201_paste))
             default_client [JStr "A"] [("language", JStr "python"); ("content", JStr "D")] w0).
    repeat constructor; cbn; intuition discriminate.
Defined.

(** * Further properties of the client and the driver *)

(** ** The client's base URL *)

(** The string ends with a slash. *)
Definition ends_with_slash (s : string) : bool :=
  match rev (list_ascii_of_string s) with
  | c :: _ => Ascii.eqb c "/"%char
  | [] => false
  end.

Lemma list_ascii_of_string_append (a b : string) :
  list_ascii_of_string (a ++ b) = (list_ascii_of_string a ++ list_ascii_of_string b)%list.
Proof. induction a as [|c a IH]; simpl; [reflexivity | rewrite IH; reflexivity]. Qed.

Lemma strip_leading_slashes_head (l : list ascii) :
  match strip_leading_slashes l with c :: _ => Ascii.eqb c "/"%char = false | [] => True end.
Proof.
  induction l as [|c t IH]; simpl; [exact I|].
  destruct (Ascii.eqb c "/"%char) eqn:E; [exact IH | exact E].
Qed.

Lemma strip_leading_slashes_id (l : list ascii) :
  match l with c :: _ => Ascii.eqb c "/"%char = false | [] => True end ->
  strip_leading_slashes l = l.
Proof. destruct l as [|c t]; simpl; [reflexivity|]. intros E. rewrite E. reflexivity. Qed.

(** X1: [__init__] strips every trailing slash of the base URL: one more
    slash gives the same client, the stored base URL never ends with a
    slash, and a base URL without a trailing slash is kept as given. *)
Theorem init_client_trailing_slash (s : string) :
  init_client (s ++ "/") = init_client s /\
  ends_with_slash (base_url (init_client s)) = false /\
  (ends_with_slash s = false -> base_url (init_client s) = s).
Proof.
  unfold init_client, rstrip_slash. cbn [base_url]. split; [|split].
  - rewrite list_ascii_of_string_append. cbn [list_ascii_of_string].
    rewrite rev_app_distr. reflexivity.
  - unfold ends_with_slash. rewrite list_ascii_of_string_of_list_ascii, rev_involutive.
    pose proof (strip_leading_slashes_head (rev (list_ascii_of_string s))) as H.
    destruct (strip_leading_slashes _); [reflexivity | exact H].
  - unfold ends_with_slash. intros E.
    rewrite strip_leading_slashes_id
      by (destruct (rev (list_ascii_of_string s)); [exact I | exact E]).
    rewrite rev_involutive, string_of_list_ascii_of_string. reflexivity.
Qed.

(** ** The listing and statistics operations *)

(** X2: listPublicPastes sends [GET {api_base}/public] with the query
    parameters [page] and [size]; a 2xx reply with a JSON body gives that
    body. *)
Theorem get_public_pastes_request_and_result (net : list request -> request -> outcome)
    (c : client) (page size : Z) (w : world) :
  let R := mkRequest GET (api_base c ++ "/public") [("page", JNum page); ("size", JNum size)] None in
  sent (snd (get_public_pastes net c page size w)) = (sent w ++ [R])%list /\
  (forall r j, net (sent w) R = Received r -> is_2xx (status_code r) ->
     resp_json r = Decoded j -> fst (get_public_pastes net c page size w) = Ok j).
Proof.
  intros R. unfold_client. fold R.
  destruct (net (sent w) R) as [r|m cr] eqn:Hn; json_call_cases.
Qed.

(** X3: searchPastes sends [GET {api_base}/search] with the query
    parameters [q], [page] and [size]; a 2xx reply with a JSON body gives
    that body. *)
Theorem search_pastes_request_and_result (net : list request -> request -> outcome)
    (c : client) (query : json) (page size : Z) (w : world) :
  let R := mkRequest GET (api_base c ++ "/search")
             [("q", query); ("page", JNum page); ("size", JNum size)] None in
  sent (snd (search_pastes net c query page size w)) = (sent w ++ [R])%list /\
  (forall r j, net (sent w) R = Received r -> is_2xx (status_code r) ->
     resp_json r = Decoded j -> fst (search_pastes net c query page size w) = Ok j).
Proof.
  intros R. unfold_client. fold R.
  destruct (net (sent w) R) as [r|m cr] eqn:Hn; json_call_cases.
Qed.

(** X4: listByLanguage sends [GET {api_base}/language/{language}] with the
    query parameters [page] and [size]; a 2xx reply with a JSON body gives
    that body. *)
Theorem get_pastes_by_language_request_and_result (net : list request -> request -> outcome)
    (c : client) (language : json) (page size : Z) (w : world) :
  let R := mkRequest GET (api_base c ++ "/language/" ++ py_str language)
             [("page", JNum page); ("size", JNum size)] None in
  sent (snd (get_pastes_by_language net c language page size w)) = (sent w ++ [R])%list /\
  (forall r j, net (sent w) R = Received r -> is_2xx (status_code r) ->
     resp_json r = Decoded j -> fst (get_pastes_by_language net c language page size w) = Ok j).
Proof.
  intros R. unfold_client. fold R.
  destruct (net (sent w) R) as [r|m cr] eqn:Hn; json_call_cases.
Qed.

(** X5: getStatistics sends [GET {api_base}/stats] with no query parameter
    and no body; a 2xx reply with a JSON body gives that body. *)
Theorem get_statistics_request_and_result (net : list request -> request -> outcome)
    (c : client) (w : world) :
  let R := mkRequest GET (api_base c ++ "/stats") [] None in
  sent (snd (get_statistics net c w)) = (sent w ++ [R])%list /\
  (forall r j, net (sent w) R = Received r -> is_2xx (status_code r) ->
     resp_json r = Decoded j -> fst (get_statistics net c w) = Ok j).
Proof.
  intros R. unfold_client. fold R.
  destruct (net (sent w) R) as [r|m cr] eqn:Hn; json_call_cases.
Qed.

(** ** healthCheck prints nothing *)

(** X6: healthCheck never prints: whatever the server answers, and also
    when it raises, the lines printed are those printed before. *)
Theorem health_check_prints_nothing (net : list request -> request -> outcome)
    (c : client) (w : world) :
  out (snd (health_check net c w)) = out w.
Proof.
  unfold_client; destruct (net _ _) as [r|m cr]; [|reflexivity].
  status_cases (status_code r); destruct (resp_json r) as [j|]; cbn; try reflexivity.
  all: destruct j; cbn; try reflexivity; destruct (dict_lookup _ _); reflexivity.
Qed.

(** ** print_paste_info *)

(** The fields [print_paste_info] reads without a default: [id], [title],
    [visibility], [viewCount], [createdAt], and a [content] that can be
    sliced (a string or a list). *)
Definition paste_printable (o : dict) : Prop :=
  dict_lookup "id" o <> None /\ dict_lookup "title" o <> None /\
  dict_lookup "visibility" o <> None /\ dict_lookup "viewCount" o <> None /\
  dict_lookup "createdAt" o <> None /\
  match dict_lookup "content" o with Some (JStr _) | Some (JArr _) => True | _ => False end.

(** [paste.get(k, d)] *)
Definition lookup_or (k : string) (o : dict) (d : json) : json :=
  match dict_lookup k o with Some x => x | None => d end.

(** Split on every key [print_paste_info] reads, in the order it reads them. *)
Ltac paste_lookups o :=
  let lk k := (destruct (dict_lookup k o) eqn:?) in
  let truthy k := (let x := fresh "x" in
                   destruct (dict_lookup k o) as [x|] eqn:?; [destruct (py_truthy x) eqn:?|]) in
  lk "id"; [lk "title"; [lk "language"; lk "authorName"; (lk "visibility";
    [lk "viewCount"; [lk "createdAt"; [truthy "expiresAt"; truthy "passwordProtected";
      destruct (dict_lookup "content" o) as [[| | | ? | ? | ?]|] eqn:?|]|]|])|]|].

(** X7: print_paste_info does nothing on a falsy value ([None], an empty
    dict, ...): no line, no exception. On a non-empty object without [id]
    it raises [KeyError('id')] before printing anything. *)
Theorem print_paste_info_edge_cases (p : json) (w : world) :
  (py_truthy p = false -> print_paste_info p w = (Ok tt, w)) /\
  (forall o, p = JObj o -> o <> [] -> dict_lookup "id" o = None ->
     print_paste_info p w = (Exc (ShapeError "KeyError" "'id'"), w)).
Proof.
  split.
  - intros H. unfold print_paste_info. rewrite H. reflexivity.
  - intros o -> Hne Hid. destruct o as [|kv t]; [contradiction|].
    unfold print_paste_info, getitem, bind, raise. cbn [py_truthy negb].
    rewrite Hid. reflexivity.
Qed.

(** X8: on a non-empty object, print_paste_info returns normally exactly
    when the object has [id], [title], [visibility], [viewCount] and
    [createdAt], and a [content] that is a string or a list; [language],
    [authorName], [expiresAt] and [passwordProtected] may be missing. *)
Theorem print_paste_info_succeeds_iff (o : dict) (w : world) :
  py_truthy (JObj o) = true ->
  (exists w', print_paste_info (JObj o) w = (Ok tt, w')) <-> paste_printable o.
Proof.
  intros Ht. unfold paste_printable, print_paste_info. rewrite Ht. cbn [negb].
  unfold getitem, dict_get, bind, ret, raise, print, slice_to.
  paste_lookups o.
  all: cbn -[repeat_str String.append str_take py_str]; split;
    [ intros [w' Hw]; first [discriminate Hw | repeat split; congruence]
    | intros Hp; first [eexists; reflexivity | exfalso; intuition congruence] ].
Qed.

(** X9: when print_paste_info returns normally on a non-empty object, it
    sends nothing and prints 9 lines, one more when [expiresAt] is truthy
    and one more when [passwordProtected] is truthy. The language and author
    default to [N/A] and [Anonymous], a string content is previewed by its
    first 100 characters followed by [...], and the last line is 50
    dashes. *)
Theorem print_paste_info_output (o : dict) (w w' : world) :
  py_truthy (JObj o) = true ->
  print_paste_info (JObj o) w = (Ok tt, w') ->
  sent w' = sent w /\
  exists l, out w' = (out w ++ l)%list /\
    length l = (9 + (if py_truthy (lookup_or "expiresAt" o JNull) then 1 else 0)
                  + (if py_truthy (lookup_or "passwordProtected" o JNull) then 1 else 0))%nat /\
    In ("Language: " ++ py_str (lookup_or "language" o (JStr "N/A"))) l /\
    In ("Author: " ++ py_str (lookup_or "authorName" o (JStr "Anonymous"))) l /\
    (forall s, dict_lookup "content" o = Some (JStr s) ->
       In ("Content Preview: " ++ str_take 100 s ++ "...") l) /\
    last l "" = repeat_str 50 "-".
Proof.
  intros Ht H. revert H. unfold print_paste_info, lookup_or. rewrite Ht. cbn [negb].
  unfold getitem, dict_get, bind, ret, raise, print, slice_to.
  paste_lookups o.
  all: intros H; cbn -[repeat_str String.append str_take py_str] in H; try discriminate H.
  all: injection H as <-; cbn [sent out]; split; [reflexivity|].
  all: eexists; split; [rewrite <- !app_assoc; reflexivity|].
  all: split; [reflexivity|]; split; [cbn; tauto|]; split; [cbn; tauto|].
  all: split; [intros s0 Hs; first [discriminate Hs | injection Hs as <-; cbn; tauto]
              | reflexivity].
Qed.

(** A paste as the server returns it. *)
Definition sample_paste : dict :=
  [("id", JStr "abc"); ("title", JStr "Hello"); ("language", JStr "python");
   ("visibility", JStr "PUBLIC"); ("viewCount", JNum 3);
   ("createdAt", JStr "2024-01-01T00:00:00"); ("passwordProtected", JBool true);
   ("content", JStr "print(1)")].

Lemma print_paste_info_succeeds_iff_witness :
  py_truthy (JObj sample_paste) = true /\
  ((exists w', print_paste_info (JObj sample_paste) w0 = (Ok tt, w')) <->
   paste_printable sample_paste).
Proof.
  split; [reflexivity|]. apply print_paste_info_succeeds_iff. reflexivity.
Defined.

Lemma print_paste_info_output_witness :
  py_truthy (JObj sample_paste) = true /\
  print_paste_info (JObj sample_paste) w0 = (Ok tt, snd (print_paste_info (JObj sample_paste) w0)) /\
  sent (snd (print_paste_info (JObj sample_paste) w0)) = [] /\
  exists l, out (snd (print_paste_info (JObj sample_paste) w0)) = l /\ length l = 10%nat.
Proof.
  split; [reflexivity|]. split; [reflexivity|].
  destruct (print_paste_info_output sample_paste w0 (snd (print_paste_info (JObj sample_paste) w0))
              eq_refl eq_refl) as [Hs [l [E [Len _]]]].
  split; [exact Hs|]. exists l. split; [exact E | exact Len].
Defined.

(** ** HTTP error reports of createPaste, getPaste and updatePaste *)

(** X10: when the reply has a 4xx or 5xx status, createPaste, getPaste and
    updatePaste return [None] and print exactly one line, their error
    message followed by the [HTTPError] text (status, "Client Error" or
    "Server Error", reason, URL); no [Response:] line follows, since such a
    response is falsy. *)
Theorem http_error_report_without_body (net : list request -> request -> outcome)
    (c : client) (title content paste_id password : json) (kwargs : dict)
    (w : world) (r : response) :
  400 <= status_code r < 600 ->
  let Rc := mkRequest POST (api_base c) []
              (Some (JObj (dict_merge [("title", title); ("content", content)] kwargs))) in
  let Rg := mkRequest GET (api_base c ++ "/" ++ py_str paste_id)
              (if py_truthy password then dict_set [] "password" password else []) None in
  let Ru := mkRequest PUT (api_base c ++ "/" ++ py_str paste_id) [] (Some (JObj kwargs)) in
  (net (sent w) Rc = Received r ->
   create_paste net c title content kwargs w =
   (Ok JNull, mkWorld (sent w ++ [Rc])
                (out w ++ ["Error creating paste: " ++ http_error_message r]))) /\
  (net (sent w) Rg = Received r ->
   get_paste net c paste_id password w =
   (Ok JNull, mkWorld (sent w ++ [Rg])
                (out w ++ ["Error retrieving paste " ++ py_str paste_id ++ ": "
                           ++ http_error_message r]))) /\
  (net (sent w) Ru = Received r ->
   update_paste net c paste_id kwargs w =
   (Ok JNull, mkWorld (sent w ++ [Ru])
                (out w ++ ["Error updating paste " ++ py_str paste_id ++ ": "
                           ++ http_error_message r]))).
Proof.
  intros Hs Rc Rg Ru. unfold http_error_message.
  repeat split; intros Hn; unfold_client; fold Rc Rg Ru; rewrite Hn;
    status_cases (status_code r); cbn; status_cases (status_code r); reflexivity.
Qed.

Lemma http_error_report_without_body_witness :
  400 <= status_code resp_404 < 600 /\
  out (snd (create_paste (const_net (Received resp_404)) default_client
              (JStr "T") (JStr "C") [] w0))
  = ["Error creating paste: 404 Client Error: Not Found for url: http://localhost:8080/api/pastes/abc"].
Proof.
  assert (H : 400 <= status_code resp_404 < 600) by (cbn; lia).
  split; [exact H|].
  pose proof (http_error_report_without_body (const_net (Received resp_404)) default_client
                (JStr "T") (JStr "C") JNull JNull [] w0 resp_404 H) as T.
  cbv zeta in T. destruct T as [Hc _]. rewrite (Hc eq_refl). reflexivity.
Defined.

(** ** The body of createPaste: key order *)

Lemma dict_set_absent (d : dict) (k : string) (v : json) :
  ~ In k (map fst d) -> dict_set d k v = (d ++ [(k, v)])%list.
Proof.
  induction d as [|[k0 v0] t IH]; intros Hn; [reflexivity|]. cbn [dict_set].
  destruct (String.eqb_spec k k0) as [->|Hne]; [exfalso; apply Hn; left; reflexivity|].
  cbn. f_equal. apply IH. intros H. apply Hn. right. exact H.
Qed.

Lemma dict_merge_absent (base extra : dict) :
  NoDup (map fst extra) ->
  (forall k, In k (map fst extra) -> ~ In k (map fst base)) ->
  dict_merge base extra = (base ++ extra)%list.
Proof.
  unfold dict_merge. revert base.
  induction extra as [|[k v] t IH]; intros base Hnd Hdis; cbn [fold_left fst snd].
  - rewrite app_nil_r. reflexivity.
  - inversion Hnd as [|? ? Hnin Ht]; subst.
    rewrite dict_set_absent by (apply Hdis; left; reflexivity).
    rewrite IH; [rewrite <- app_assoc; reflexivity | exact Ht |].
    intros k' Hk'. rewrite map_app, in_app_iff. cbn. intros [H|[H|[]]].
    + apply (Hdis k'); [right; exact Hk' | exact H].
    + subst k'. contradiction.
Qed.

Lemma bind_keywords_plain (kw : dict) (t0 co0 : option json) (acc : dict) :
  ~ In "self" (map fst kw) -> ~ In "title" (map fst kw) -> ~ In "content" (map fst kw) ->
  bind_keywords kw t0 co0 acc = inr (t0, co0, (acc ++ kw)%list).
Proof.
  revert acc. induction kw as [|[k v] rest IH]; intros acc Hs Ht Hc.
  - rewrite app_nil_r. reflexivity.
  - cbn [map fst In] in Hs, Ht, Hc. cbn [bind_keywords].
    destruct (String.eqb_spec k "self"); [exfalso; apply Hs; left; congruence|].
    destruct (String.eqb_spec k "title"); [exfalso; apply Ht; left; congruence|].
    destruct (String.eqb_spec k "content"); [exfalso; apply Hc; left; congruence|].
    rewrite IH by tauto. rewrite <- app_assoc. reflexivity.
Qed.

(** X11: a call [client.create_paste(title, content, **options)] whose
    options have unique names other than [self], [title] and [content]
    sends exactly one request, a POST to the API base whose JSON body is
    [title], then [content], then the options in the order they were
    passed. *)
Theorem create_paste_body_key_order (net : list request -> request -> outcome)
    (c : client) (title content : json) (kwargs : dict) (w : world) :
  NoDup (map fst kwargs) ->
  ~ In "self" (map fst kwargs) -> ~ In "title" (map fst kwargs) -> ~ In "content" (map fst kwargs) ->
  sent (snd (create_paste_call net c [title; content] kwargs w)) =
  (sent w ++ [mkRequest POST (api_base c) []
               (Some (JObj (("title", title) :: ("content", content) :: kwargs)))])%list.
Proof.
  intros Hnd Hs Ht Hc. unfold create_paste_call, bind_create_paste_args. cbn [nth_error].
  rewrite bind_keywords_plain by assumption. cbn [app length Nat.ltb Nat.leb].
  rewrite create_paste_sends. rewrite dict_merge_absent; [reflexivity | exact Hnd |].
  intros k Hk. cbn. intros [<-|[<-|[]]]; contradiction.
Qed.

Lemma create_paste_body_key_order_witness :
  NoDup (map fst [("language", JStr "python"); ("visibility", JStr "public")]) /\
  sent (snd (create_paste_call (const_net (Received resp_201_paste)) default_client
    [JStr "T"; JStr "C"] [("language", JStr "python"); ("visibility", JStr "public")] w0)) =
  [mkRequest POST "http://localhost:8080/api/pastes" []
     (Some (JObj [("title", JStr "T"); ("content", JStr "C");
                  ("language", JStr "python"); ("visibility", JStr "public")]))].
Proof.
  assert (H : NoDup (map fst [("language", JStr "python"); ("visibility", JStr "public")]))
    by (repeat constructor; cbn; intuition discriminate).
  split; [exact H|].
  rewrite (create_paste_body_key_order (const_net (Received resp_201_paste)) default_client
             (JStr "T") (JStr "C") _ w0 H);
    [reflexivity | cbn; intuition discriminate ..].
Defined.


(** ** How many session calls the driver makes, and where *)

(** [m] hands at most [n] requests to the session, each satisfying [P],
    whatever the server and the outcome. *)
Definition sends_at_most {A} (P : request -> Prop) (n : nat) (m : M A) : Prop :=
  forall w, exists l, sent (snd (m w)) = (sent w ++ l)%list /\ (length l <= n)%nat /\ Forall P l.

(** The URL of the request lies under [prefix]. *)
Definition url_within (prefix : string) (r : request) : Prop :=
  String.prefix prefix (req_url r) = true.

Lemma prefix_app (s t : string) : String.prefix s (s ++ t) = true.
Proof.
  induction s as [|c s IH]; simpl; [destruct t; reflexivity|].
  destruct (ascii_dec c c) as [_|n]; [exact IH | congruence].
Qed.

Lemma prefix_refl (s : string) : String.prefix s s = true.
Proof.
  induction s as [|c s IH]; simpl; [reflexivity|].
  destruct (ascii_dec c c) as [_|n]; [exact IH | congruence].
Qed.

Section Sends.
Variable P : request -> Prop.

Lemma sends_mono {A} (n n' : nat) (m : M A) :
  sends_at_most P n m -> (n <= n')%nat -> sends_at_most P n' m.
Proof.
  intros H Hle w. destruct (H w) as [l [E [L F]]]. exists l. split; [exact E|]. split; [lia | exact F].
Qed.

Lemma sends_nothing {A} (m : M A) :
  (forall w, sent (snd (m w)) = sent w) -> sends_at_most P 0 m.
Proof.
  intros H w. exists []. rewrite app_nil_r, H. split; [reflexivity|]. split; [apply le_n | constructor].
Qed.

Lemma sends_ret {A} (a : A) : sends_at_most P 0 (ret a).
Proof. apply sends_nothing. reflexivity. Qed.

Lemma sends_raise {A} (e : exn) : sends_at_most P 0 (@raise A e).
Proof. apply sends_nothing. reflexivity. Qed.

Lemma sends_print (s : string) : sends_at_most P 0 (print s).
Proof. apply sends_nothing. reflexivity. Qed.

Lemma sends_send net (r : request) : P r -> sends_at_most P 1 (send net r).
Proof. intros Hr w. exists [r]. split; [reflexivity|]. split; [apply le_n | repeat constructor; exact Hr]. Qed.

Lemma sends_bind {A B} (n k : nat) (m : M A) (f : A -> M B) :
  sends_at_most P n m -> (forall a, sends_at_most P k (f a)) -> sends_at_most P (n + k) (bind m f).
Proof.
  intros Hm Hf w. unfold bind. destruct (Hm w) as [l1 [E1 [L1 F1]]].
  destruct (m w) as [[a|e] w1]; cbn in E1.
  - destruct (Hf a w1) as [l2 [E2 [L2 F2]]]. exists (l1 ++ l2)%list.
    rewrite E2, E1, app_assoc, length_app. split; [reflexivity|].
    split; [lia | apply Forall_app; split; assumption].
  - exists l1. split; [exact E1|]. split; [lia | exact F1].
Qed.

Lemma sends_try {A} (n k : nat) (body : M A) (handler : exn -> M A) :
  sends_at_most P n body -> (forall e, sends_at_most P k (handler e)) ->
  sends_at_most P (n + k) (try_request body handler).
Proof.
  intros Hb Hh w. unfold try_request. destruct (Hb w) as [l1 [E1 [L1 F1]]].
  destruct (body w) as [[a|e] w1]; cbn in E1.
  - exists l1. split; [exact E1|]. split; [lia | exact F1].
  - destruct (is_request_exception e).
    + destruct (Hh e w1) as [l2 [E2 [L2 F2]]]. exists (l1 ++ l2)%list.
      rewrite E2, E1, app_assoc, length_app. split; [reflexivity|].
      split; [lia | apply Forall_app; split; assumption].
    + exists l1. split; [exact E1|]. split; [lia | exact F1].
Qed.

Lemma sends_if {A} (n k : nat) (b : bool) (m1 m2 : M A) :
  sends_at_most P n m1 -> sends_at_most P k m2 ->
  sends_at_most P (Nat.max n k) (if b then m1 else m2).
Proof.
  intros H1 H2. destruct b; eapply sends_mono; eauto; lia.
Qed.

Lemma sends_for_each {A} (l : list A) (body : A -> M unit) :
  (forall a, sends_at_most P 0 (body a)) -> sends_at_most P 0 (for_each l body).
Proof.
  intros Hb. induction l as [|x t IH]; simpl; [apply sends_ret|].
  apply (sends_bind 0 0); [apply Hb | intros; exact IH].
Qed.

Lemma sends_getitem v k : sends_at_most P 0 (getitem v k).
Proof. unfold getitem. destruct v; try apply sends_raise. destruct (dict_lookup k o); [apply sends_ret | apply sends_raise]. Qed.

Lemma sends_getitem_int v i : sends_at_most P 0 (getitem_int v i).
Proof.
  unfold getitem_int. destruct v; try apply sends_raise.
  - destruct (nth_error (code_points s) i); [apply sends_ret | apply sends_raise].
  - destruct (nth_error l i); [apply sends_ret | apply sends_raise].
Qed.

Lemma sends_dict_get v k d : sends_at_most P 0 (dict_get v k d).
Proof. unfold dict_get. destruct v; try apply sends_raise. destruct (dict_lookup k o); apply sends_ret. Qed.

Lemma sends_slice_to v n : sends_at_most P 0 (slice_to v n).
Proof. unfold slice_to. destruct v; solve [apply sends_ret | apply sends_raise]. Qed.

Lemma sends_py_len v : sends_at_most P 0 (py_len v).
Proof. unfold py_len. destruct v; solve [apply sends_ret | apply sends_raise]. Qed.

Lemma sends_py_iter v : sends_at_most P 0 (py_iter v).
Proof. unfold py_iter. destruct v; solve [apply sends_ret | apply sends_raise]. Qed.

Lemma sends_raise_for_status r : sends_at_most P 0 (raise_for_status r).
Proof.
  unfold raise_for_status.
  destruct (_ && _); [apply sends_raise|]. destruct (_ && _); [apply sends_raise | apply sends_ret].
Qed.

Lemma sends_response_json r : sends_at_most P 0 (response_json r).
Proof. unfold response_json. destruct (resp_json r); [apply sends_ret | apply sends_raise]. Qed.

Lemma sends_print_error_response e : sends_at_most P 0 (print_error_response e).
Proof.
  unfold print_error_response. destruct (exn_response e); [|apply sends_ret].
  destruct (resp_ok r); [apply sends_print | apply sends_ret].
Qed.

End Sends.

Create HintDb sends.
#[local] Hint Resolve sends_ret sends_raise sends_print sends_getitem
  sends_getitem_int sends_dict_get sends_slice_to sends_py_len sends_py_iter
  sends_raise_for_status sends_response_json sends_print_error_response : sends.

(** Bound the requests of a composite computation, one statement at a time. *)
Ltac sends_steps :=
  repeat (cbv beta zeta;
    first [ eapply sends_bind; [|intros ?]
          | eapply sends_try; [|intros ?]
          | eapply sends_if
          | apply sends_send; unfold url_within; cbn [req_url]; first [apply prefix_app | apply prefix_refl]
          | apply sends_for_each; intros ?; eapply sends_mono; [sends_steps | cbn; lia]
          | solve [eauto with sends] ]).

Ltac sends_bound := eapply sends_mono; [sends_steps | cbn; lia].

Section Bounds.
Variable net : list request -> request -> outcome.

Lemma sends_create_paste c t co kw : sends_at_most (url_within (api_base c)) 1 (create_paste net c t co kw).
Proof. unfold create_paste, session_post. sends_bound. Qed.
Lemma sends_get_paste c i p : sends_at_most (url_within (api_base c)) 1 (get_paste net c i p).
Proof. unfold get_paste, session_get. sends_bound. Qed.
Lemma sends_update_paste c i kw : sends_at_most (url_within (api_base c)) 1 (update_paste net c i kw).
Proof. unfold update_paste, session_put. sends_bound. Qed.
Lemma sends_delete_paste c i : sends_at_most (url_within (api_base c)) 1 (delete_paste net c i).
Proof. unfold delete_paste, session_delete. sends_bound. Qed.
Lemma sends_get_public_pastes c p s : sends_at_most (url_within (api_base c)) 1 (get_public_pastes net c p s).
Proof. unfold get_public_pastes, session_get. sends_bound. Qed.
Lemma sends_search_pastes c q p s : sends_at_most (url_within (api_base c)) 1 (search_pastes net c q p s).
Proof. unfold search_pastes, session_get. sends_bound. Qed.
Lemma sends_get_pastes_by_language c l p s : sends_at_most (url_within (api_base c)) 1 (get_pastes_by_language net c l p s).
Proof. unfold get_pastes_by_language, session_get. sends_bound. Qed.
Lemma sends_get_statistics c : sends_at_most (url_within (api_base c)) 1 (get_statistics net c).
Proof. unfold get_statistics, session_get. sends_bound. Qed.
Lemma sends_health_check c : sends_at_most (url_within (api_base c)) 1 (health_check net c).
Proof. unfold health_check, session_get. sends_bound. Qed.
Lemma sends_print_paste_info P p : sends_at_most P 0 (print_paste_info p).
Proof. unfold print_paste_info. sends_bound. Qed.

#[local] Hint Resolve sends_create_paste sends_get_paste sends_update_paste
  sends_delete_paste sends_get_public_pastes sends_search_pastes
  sends_get_pastes_by_language sends_get_statistics sends_health_check
  sends_print_paste_info : sends.

Lemma sends_main_steps_4_13 cl i1 i2 : sends_at_most (url_within (api_base cl)) 11 (main_steps_4_13 net cl i1 i2).
Proof. unfold main_steps_4_13. sends_bound. Qed.
#[local] Hint Resolve sends_main_steps_4_13 : sends.
Lemma sends_main_step_3 cl i1 : sends_at_most (url_within (api_base cl)) 12 (main_step_3 net cl i1).
Proof. unfold main_step_3. sends_bound. Qed.
#[local] Hint Resolve sends_main_step_3 : sends.
Lemma sends_main_after_health cl : sends_at_most (url_within (api_base cl)) 13 (main_after_health net cl).
Proof. unfold main_after_health. sends_bound. Qed.

End Bounds.


Definition health_request : request :=
  mkRequest GET "http://localhost:8080/api/pastes/health" [] None.

(** X12: the driver makes at most 14 session calls (a call may follow
    redirects on the wire), the first being the health check
    [GET http://localhost:8080/api/pastes/health], and every URL it hands
    to the session lies under [http://localhost:8080/api/pastes]; whatever
    the server answers and however the run ends. *)
Theorem main_session_calls_at_most_14 (net : list request -> request -> outcome) (w : world) :
  exists l, sent (snd (main net w)) = (sent w ++ health_request :: l)%list /\
    (length l <= 13)%nat /\
    Forall (url_within "http://localhost:8080/api/pastes") (health_request :: l).
Proof.
  unfold main, bind, print. cbn -[health_check main_after_health sys_exit].
  match goal with |- context [health_check net ?c ?w1] =>
    pose proof (health_check_sends net c w1) as Hs;
    destruct (health_check net c w1) as [[ok|e] w2] eqn:Eh end;
  cbn in Hs; fold health_request in Hs.
  - destruct ok; cbn -[main_after_health].
    + match goal with |- context [main_after_health net ?c ?w3] =>
        destruct (sends_main_after_health net c w3) as [l [E [L F]]] end.
      exists l. rewrite E. cbn. rewrite Hs, <- app_assoc. split; [reflexivity|].
      split; [exact L | constructor; [reflexivity | exact F]].
    + exists []. cbn. rewrite Hs. split; [reflexivity|]. split; [apply le_0_n | repeat constructor].
  - exists []. cbn. rewrite Hs. split; [reflexivity|]. split; [apply le_0_n | repeat constructor].
Qed.


(** A server that is up and refuses every POST. *)
Definition net_refuses_posts : list request -> request -> outcome :=
  fun _ r =>
    match req_method r with
    | POST => Failed "Connection refused" None
    | _ => Received (mkResponse 200 "OK" (req_url r) "{}"
                      (Decoded (JObj [("status", JStr "UP")])))
    end.


(** ** How the driver ends *)

(** When [m] returns normally, the last line printed is one of [L]. *)
Definition ends_with_one_of {A} (L : list string) (m : M A) : Prop :=
  forall w a w', m w = (Ok a, w') -> In (last (out w') "") L.

Section Endings.
Variable L : list string.

Lemma ends_bind {A B} (m : M A) (f : A -> M B) :
  (forall a, ends_with_one_of L (f a)) -> ends_with_one_of L (bind m f).
Proof.
  intros Hf w b w' H. unfold bind in H.
  destruct (m w) as [[a|e] w1]; [exact (Hf a w1 b w' H) | discriminate H].
Qed.

Lemma ends_if {A} (b : bool) (m1 m2 : M A) :
  ends_with_one_of L m1 -> ends_with_one_of L m2 -> ends_with_one_of L (if b then m1 else m2).
Proof. destruct b; auto. Qed.

Lemma ends_print (s : string) : In s L -> ends_with_one_of L (print s).
Proof.
  intros Hs w a w' H. unfold print in H. injection H as _ <-. cbn. rewrite last_last. exact Hs.
Qed.

Lemma ends_print_ret (s : string) : In s L -> ends_with_one_of L (print s ;;; ret tt).
Proof.
  intros Hs w a w' H. unfold bind, print, ret in H. injection H as _ <-. cbn.
  rewrite last_last. exact Hs.
Qed.

End Endings.

(** Follow a computation to the statement that prints its last line. *)
Ltac ends_steps :=
  repeat (cbv beta zeta;
    first [ apply ends_print_ret; cbn; tauto
          | apply ends_print; cbn; tauto
          | apply ends_bind; intros ?
          | apply ends_if ]).

(** The last lines of the three normal ends of [main]. *)
Definition main_final_lines : list string :=
  [cross_mark ++ " Failed to create paste";
   cross_mark ++ " Failed to create protected paste";
   nl ++ check_mark ++ " Example completed successfully!"].

(** X14: when the driver returns normally, the last line it printed is
    "✗ Failed to create paste", "✗ Failed to create protected paste" or
    "✓ Example completed successfully!" (after a newline). *)
Theorem main_normal_end (net : list request -> request -> outcome) (w w' : world) :
  main net w = (Ok tt, w') -> In (last (out w') "") main_final_lines.
Proof.
  revert w w'. enough (H : ends_with_one_of main_final_lines (main net))
    by (intros w w' Hm; exact (H w tt w' Hm)).
  unfold main, main_after_health, main_step_3, main_steps_4_13. ends_steps.
Qed.

Lemma main_normal_end_witness :
  main net_refuses_posts w0 = (Ok tt, snd (main net_refuses_posts w0)) /\
  In (last (out (snd (main net_refuses_posts w0))) "") main_final_lines.
Proof.
  assert (H : main net_refuses_posts w0 = (Ok tt, snd (main net_refuses_posts w0))) by reflexivity.
  split; [exact H | exact (main_normal_end net_refuses_posts w0 _ H)].
Defined.
